(** * Command construction and dispatch in the reolinkapi mixins

    A shallow embedding of the four mixins of [reolinkapi/mixins]
    ([alarm.py], [ptz.py], [record.py], [zoom.py]).  Every method of these
    classes assembles a JSON-like body and hands it to
    [self._execute_command(command_name, body)], which lives in the host
    class.  The embedding keeps

    - Python values as an inductive type [value] (dict literals are
      association lists, so that the order of the keys is the order of the
      source text),
    - default arguments as [option value] parameters ([None] = argument
      omitted at the call site),
    - the call to the host's dispatcher as a node [Exec] of a small
      program tree, run against an arbitrary dispatcher by [run]. *)

From Stdlib Require Import ZArith List String Bool.
From Stdlib Require Import Floats.SpecFloat.
Import ListNotations.

Open Scope string_scope.
Open Scope Z_scope.

Set Warnings "-register-all".

(** ** Python values *)

Inductive value : Type :=
| VNone
| VBool (b : bool)
| VInt (z : Z)
| VFloat (f : spec_float)
| VStr (s : string)
| VList (items : list value)
| VDict (entries : list (string * value)).

Definition dict : Type := list (string * value).

(** [d.get(k)] on a dict whose keys are strings. *)
Fixpoint dict_get (d : dict) (k : string) : option value :=
  match d with
  | [] => None
  | (k', v) :: rest => if String.eqb k' k then Some v else dict_get rest k
  end.

(** [d[k] = v]: an existing key keeps its place, a new key goes last. *)
Fixpoint dict_set (d : dict) (k : string) (v : value) : dict :=
  match d with
  | [] => [(k, v)]
  | (k', v') :: rest =>
      if String.eqb k' k then (k', v) :: rest else (k', v') :: dict_set rest k v
  end.

Definition dict_keys (d : dict) : list string := map fst d.

(** Truth value of an object, as used by [x if c else y]. *)
Definition truthy (v : value) : bool :=
  match v with
  | VNone => false
  | VBool b => b
  | VInt z => negb (z =? 0)
  | VFloat (S754_zero _) => false
  | VFloat _ => true
  | VStr s => negb (String.eqb s "")
  | VList [] => false
  | VList (_ :: _) => true
  | VDict [] => false
  | VDict (_ :: _) => true
  end.

(** [v is None]. *)
Definition is_none (v : value) : bool :=
  match v with
  | VNone => true
  | _ => false
  end.

(** Binding of a parameter that has a default: [given] is [None] when the
    caller leaves the argument out. *)
Definition arg (default : value) (given : option value) : value :=
  match given with
  | Some v => v
  | None => default
  end.

(** ** Programs over the host's dispatcher *)

Inductive prog (A : Type) : Type :=
| Ret (a : A)
| Exec (command_name : string) (body : value) (k : value -> prog A).

Arguments Ret {A} a.
Arguments Exec {A} command_name body k.

(** [self._execute_command(command_name, body)] as the last action of a
    method: whatever the dispatcher answers is the method's answer. *)
Definition _execute_command (command_name : string) (body : value) : prog value :=
  Exec command_name body Ret.

Definition request : Type := (string * value)%type.

Section Run.

(** The dispatcher is the host class's business: it may keep a session
    ([world]) and it may raise ([exn]). *)
Variable world : Type.
Variable exn : Type.

Inductive outcome : Type :=
| Returned (v : value)
| Raised (e : exn).

Variable dispatcher : string -> value -> world -> outcome * world.

(** Runs a program; [log] collects the dispatcher calls in order.  An
    exception of the dispatcher ends the program and is passed on. *)
Fixpoint run (p : prog value) (w : world) (log : list request)
  : outcome * world * list request :=
  match p with
  | Ret v => (Returned v, w, log)
  | Exec n b k =>
      match dispatcher n b w with
      | (Returned v, w') => run (k v) w' (log ++ [(n, b)])%list
      | (Raised e, w') => (Raised e, w', (log ++ [(n, b)])%list)
      end
  end.

End Run.

Arguments Returned {exn} v.
Arguments Raised {exn} e.
Arguments run {world exn} dispatcher p w log.

(** ** alarm.py *)

Module AlarmAPIMixin.

Definition get_alarm_motion (channel : option value) : prog value :=
  let channel := arg (VInt 0) channel in
  let body :=
    VList [VDict [("cmd", VStr "GetAlarm"); ("action", VInt 1);
                  ("param", VDict [("Alarm", VDict [("channel", channel);
                                                    ("type", VStr "md")])])]] in
  _execute_command "GetAlarm" body.

End AlarmAPIMixin.

(** ** ptz.py *)

Module PtzAPIMixin.

Definition get_ptz_check_state (channel : option value) : prog value :=
  let channel := arg (VInt 0) channel in
  let body :=
    VList [VDict [("cmd", VStr "GetPtzCheckState"); ("action", VInt 1);
                  ("param", VDict [("channel", channel)])]] in
  _execute_command "GetPtzCheckState" body.

Definition get_ptz_presets (channel : option value) : prog value :=
  let channel := arg (VInt 0) channel in
  let body :=
    VList [VDict [("cmd", VStr "GetPtzPreset"); ("action", VInt 1);
                  ("param", VDict [("channel", channel)])]] in
  _execute_command "GetPtzPreset" body.

Definition perform_calibration (channel : option value) : prog value :=
  let channel := arg (VInt 0) channel in
  let data :=
    VList [VDict [("cmd", VStr "PtzCheck"); ("action", VInt 0);
                  ("param", VDict [("channel", channel)])]] in
  _execute_command "PtzCheck" data.

Definition _send_operation (operation speed : value)
           (index channel : option value) : prog value :=
  let index := arg VNone index in
  let channel := arg (VInt 0) channel in
  let param := [("channel", channel); ("op", operation); ("speed", speed)] in
  let param := if is_none index then param else dict_set param "id" index in
  let data :=
    VList [VDict [("cmd", VStr "PtzCtrl"); ("action", VInt 0);
                  ("param", VDict param)]] in
  _execute_command "PtzCtrl" data.

Definition _send_noparm_operation (operation : value)
           (channel : option value) : prog value :=
  let channel := arg (VInt 0) channel in
  let data :=
    VList [VDict [("cmd", VStr "PtzCtrl"); ("action", VInt 0);
                  ("param", VDict [("channel", channel); ("op", operation)])]] in
  _execute_command "PtzCtrl" data.

Definition _send_set_preset (enable : value)
           (preset name channel : option value) : prog value :=
  let preset := arg (VInt 1) preset in
  let name := arg (VStr "pos1") name in
  let channel := arg (VInt 0) channel in
  let data :=
    VList [VDict [("cmd", VStr "SetPtzPreset"); ("action", VInt 0);
                  ("param", VDict [("PtzPreset",
                     VDict [("channel", channel); ("enable", enable);
                            ("id", preset); ("name", name)])])]] in
  _execute_command "PtzCtrl" data.

Definition go_to_preset (speed index channel : option value) : prog value :=
  let speed := arg (VInt 60) speed in
  let index := arg (VInt 1) index in
  let channel := arg (VInt 0) channel in
  _send_operation (VStr "ToPos") speed (Some index) (Some channel).

Definition add_preset (preset name channel : option value) : prog value :=
  let preset := arg (VInt 1) preset in
  let name := arg (VStr "pos1") name in
  let channel := arg (VInt 0) channel in
  _send_set_preset (VInt 1) (Some preset) (Some name) (Some channel).

Definition remove_preset (preset name channel : option value) : prog value :=
  let preset := arg (VInt 1) preset in
  let name := arg (VStr "pos1") name in
  let channel := arg (VInt 0) channel in
  _send_set_preset (VInt 0) (Some preset) (Some name) (Some channel).

Definition move_right (speed channel : option value) : prog value :=
  let speed := arg (VInt 25) speed in
  let channel := arg (VInt 0) channel in
  _send_operation (VStr "Right") speed None (Some channel).

Definition move_right_up (speed channel : option value) : prog value :=
  let speed := arg (VInt 25) speed in
  let channel := arg (VInt 0) channel in
  _send_operation (VStr "RightUp") speed None (Some channel).

Definition move_right_down (speed channel : option value) : prog value :=
  let speed := arg (VInt 25) speed in
  let channel := arg (VInt 0) channel in
  _send_operation (VStr "RightDown") speed None (Some channel).

Definition move_left (speed channel : option value) : prog value :=
  let speed := arg (VInt 25) speed in
  let channel := arg (VInt 0) channel in
  _send_operation (VStr "Left") speed None (Some channel).

Definition move_left_up (speed channel : option value) : prog value :=
  let speed := arg (VInt 25) speed in
  let channel := arg (VInt 0) channel in
  _send_operation (VStr "LeftUp") speed None (Some channel).

Definition move_left_down (speed channel : option value) : prog value :=
  let speed := arg (VInt 25) speed in
  let channel := arg (VInt 0) channel in
  _send_operation (VStr "LeftDown") speed None (Some channel).

Definition move_up (speed channel : option value) : prog value :=
  let speed := arg (VInt 25) speed in
  let channel := arg (VInt 0) channel in
  _send_operation (VStr "Up") speed None (Some channel).

Definition move_down (speed channel : option value) : prog value :=
  let speed := arg (VInt 25) speed in
  let channel := arg (VInt 0) channel in
  _send_operation (VStr "Down") speed None (Some channel).

Definition stop_ptz (channel : option value) : prog value :=
  let channel := arg (VInt 0) channel in
  _send_noparm_operation (VStr "Stop") (Some channel).

Definition auto_movement (speed channel : option value) : prog value :=
  let speed := arg (VInt 25) speed in
  let channel := arg (VInt 0) channel in
  _send_operation (VStr "Auto") speed None (Some channel).

End PtzAPIMixin.

(** ** record.py *)

Module RecordAPIMixin.

Definition get_recording_encoding (channel : option value) : prog value :=
  let channel := arg (VInt 0) channel in
  let body :=
    VList [VDict [("cmd", VStr "GetEnc"); ("action", VInt 1);
                  ("param", VDict [("channel", channel)])]] in
  _execute_command "GetEnc" body.

Definition get_recording_advanced (channel : option value) : prog value :=
  let channel := arg (VInt 0) channel in
  let body :=
    VList [VDict [("cmd", VStr "GetRec"); ("action", VInt 1);
                  ("param", VDict [("channel", channel)])]] in
  _execute_command "GetRec" body.

Definition get_recording_advanced_v20 (channel : option value) : prog value :=
  let channel := arg (VInt 0) channel in
  let body :=
    VList [VDict [("cmd", VStr "GetRecV20"); ("action", VInt 0);
                  ("param", VDict [("channel", channel)])]] in
  _execute_command "GetRecV20" body.

Definition set_recording_advanced_v20_enable (enable : option value)
  : prog value :=
  let enable := arg (VInt 0) enable in
  let body :=
    VList [VDict [("cmd", VStr "SetRecV20"); ("action", VInt 0);
                  ("param", VDict [("Rec", VDict [("enable", enable)])])]] in
  _execute_command "SetRecV20" body.

Definition set_recording_encoding
           (audio main_bit_rate main_frame_rate main_profile main_size
            sub_bit_rate sub_frame_rate sub_profile sub_size
            channel : option value) : prog value :=
  let audio := arg (VInt 0) audio in
  let main_bit_rate := arg (VInt 8192) main_bit_rate in
  let main_frame_rate := arg (VInt 8) main_frame_rate in
  let main_profile := arg (VStr "High") main_profile in
  let main_size := arg (VStr "2560*1440") main_size in
  let sub_bit_rate := arg (VInt 160) sub_bit_rate in
  let sub_frame_rate := arg (VInt 7) sub_frame_rate in
  let sub_profile := arg (VStr "High") sub_profile in
  let sub_size := arg (VStr "640*480") sub_size in
  let channel := arg (VInt 0) channel in
  let body :=
    VList [VDict [
      ("cmd", VStr "SetEnc");
      ("action", VInt 0);
      ("param", VDict [
        ("Enc", VDict [
          ("audio", audio);
          ("channel", channel);
          ("mainStream", VDict [
            ("bitRate", main_bit_rate);
            ("frameRate", main_frame_rate);
            ("profile", main_profile);
            ("size", main_size)]);
          ("subStream", VDict [
            ("bitRate", sub_bit_rate);
            ("frameRate", sub_frame_rate);
            ("profile", sub_profile);
            ("size", sub_size)])])])]] in
  _execute_command "SetEnc" body.

End RecordAPIMixin.

(** ** zoom.py *)

Module ZoomAPIMixin.

Definition _start_operation (operation speed : value)
           (channel : option value) : prog value :=
  let channel := arg (VInt 0) channel in
  let data :=
    VList [VDict [("cmd", VStr "PtzCtrl"); ("action", VInt 0);
                  ("param", VDict [("channel", channel); ("op", operation);
                                   ("speed", speed)])]] in
  _execute_command "PtzCtrl" data.

Definition _stop_zooming_or_focusing (channel : option value) : prog value :=
  let channel := arg (VInt 0) channel in
  let data :=
    VList [VDict [("cmd", VStr "PtzCtrl"); ("action", VInt 0);
                  ("param", VDict [("channel", channel); ("op", VStr "Stop")])]] in
  _execute_command "PtzCtrl" data.

Definition get_zoom_focus (channel : option value) : prog value :=
  let channel := arg (VInt 0) channel in
  let data :=
    VList [VDict [("cmd", VStr "GetZoomFocus"); ("action", VInt 0);
                  ("param", VDict [("channel", channel)])]] in
  _execute_command "GetZoomFocus" data.

Definition start_zoom_pos (position : value) (channel : option value)
  : prog value :=
  let channel := arg (VInt 0) channel in
  let data :=
    VList [VDict [("cmd", VStr "StartZoomFocus"); ("action", VInt 0);
                  ("param", VDict [("ZoomFocus",
                     VDict [("channel", channel); ("op", VStr "ZoomPos");
                            ("pos", position)])])]] in
  _execute_command "StartZoomFocus" data.

Definition start_focus_pos (position : value) (channel : option value)
  : prog value :=
  let channel := arg (VInt 0) channel in
  let data :=
    VList [VDict [("cmd", VStr "StartZoomFocus"); ("action", VInt 0);
                  ("param", VDict [("ZoomFocus",
                     VDict [("channel", channel); ("op", VStr "FocusPos");
                            ("pos", position)])])]] in
  _execute_command "StartZoomFocus" data.

Definition get_auto_focus (channel : option value) : prog value :=
  let channel := arg (VInt 0) channel in
  let data :=
    VList [VDict [("cmd", VStr "GetAutoFocus"); ("action", VInt 0);
                  ("param", VDict [("channel", channel)])]] in
  _execute_command "GetAutoFocus" data.

Definition set_auto_focus (disable : value) (channel : option value)
  : prog value :=
  let channel := arg (VInt 0) channel in
  let data :=
    VList [VDict [("cmd", VStr "SetAutoFocus"); ("action", VInt 0);
                  ("param", VDict [("AutoFocus",
                     VDict [("channel", channel);
                            ("disable", if truthy disable then VInt 1
                                        else VInt 0)])])]] in
  _execute_command "SetAutoFocus" data.

Definition start_zooming_in (speed channel : option value) : prog value :=
  let speed := arg (VInt 60) speed in
  let channel := arg (VInt 0) channel in
  _start_operation (VStr "ZoomInc") speed (Some channel).

Definition start_zooming_out (speed channel : option value) : prog value :=
  let speed := arg (VInt 60) speed in
  let channel := arg (VInt 0) channel in
  _start_operation (VStr "ZoomDec") speed (Some channel).

Definition stop_zooming (channel : option value) : prog value :=
  let channel := arg (VInt 0) channel in
  _stop_zooming_or_focusing (Some channel).

Definition start_focusing_in (speed channel : option value) : prog value :=
  let speed := arg (VInt 32) speed in
  let channel := arg (VInt 0) channel in
  _start_operation (VStr "FocusInc") speed (Some channel).

Definition start_focusing_out (speed channel : option value) : prog value :=
  let speed := arg (VInt 32) speed in
  let channel := arg (VInt 0) channel in
  _start_operation (VStr "FocusDec") speed (Some channel).

Definition stop_focusing (channel : option value) : prog value :=
  let channel := arg (VInt 0) channel in
  _stop_zooming_or_focusing (Some channel).

End ZoomAPIMixin.

(** ** The public surface of the four mixins

    One constructor per public method (the methods whose name starts with
    an underscore are helpers), carrying the arguments of one invocation.
    A parameter with a default is an [option]; [position] of
    [start_zoom_pos]/[start_focus_pos] and [disable] of [set_auto_focus]
    have none and are always given. *)

Inductive call : Type :=
(* AlarmAPIMixin *)
| Get_alarm_motion (channel : option value)
(* PtzAPIMixin *)
| Get_ptz_check_state (channel : option value)
| Get_ptz_presets (channel : option value)
| Perform_calibration (channel : option value)
| Go_to_preset (speed index channel : option value)
| Add_preset (preset name channel : option value)
| Remove_preset (preset name channel : option value)
| Move_right (speed channel : option value)
| Move_right_up (speed channel : option value)
| Move_right_down (speed channel : option value)
| Move_left (speed channel : option value)
| Move_left_up (speed channel : option value)
| Move_left_down (speed channel : option value)
| Move_up (speed channel : option value)
| Move_down (speed channel : option value)
| Stop_ptz (channel : option value)
| Auto_movement (speed channel : option value)
(* RecordAPIMixin *)
| Get_recording_encoding (channel : option value)
| Get_recording_advanced (channel : option value)
| Get_recording_advanced_v20 (channel : option value)
| Set_recording_advanced_v20_enable (enable : option value)
| Set_recording_encoding
    (audio main_bit_rate main_frame_rate main_profile main_size
     sub_bit_rate sub_frame_rate sub_profile sub_size channel : option value)
(* ZoomAPIMixin *)
| Get_zoom_focus (channel : option value)
| Start_zoom_pos (position : value) (channel : option value)
| Start_focus_pos (position : value) (channel : option value)
| Get_auto_focus (channel : option value)
| Set_auto_focus (disable : value) (channel : option value)
| Start_zooming_in (speed channel : option value)
| Start_zooming_out (speed channel : option value)
| Stop_zooming (channel : option value)
| Start_focusing_in (speed channel : option value)
| Start_focusing_out (speed channel : option value)
| Stop_focusing (channel : option value).

Definition invoke (c : call) : prog value :=
  match c with
  | Get_alarm_motion ch => AlarmAPIMixin.get_alarm_motion ch
  | Get_ptz_check_state ch => PtzAPIMixin.get_ptz_check_state ch
  | Get_ptz_presets ch => PtzAPIMixin.get_ptz_presets ch
  | Perform_calibration ch => PtzAPIMixin.perform_calibration ch
  | Go_to_preset sp ix ch => PtzAPIMixin.go_to_preset sp ix ch
  | Add_preset p n ch => PtzAPIMixin.add_preset p n ch
  | Remove_preset p n ch => PtzAPIMixin.remove_preset p n ch
  | Move_right sp ch => PtzAPIMixin.move_right sp ch
  | Move_right_up sp ch => PtzAPIMixin.move_right_up sp ch
  | Move_right_down sp ch => PtzAPIMixin.move_right_down sp ch
  | Move_left sp ch => PtzAPIMixin.move_left sp ch
  | Move_left_up sp ch => PtzAPIMixin.move_left_up sp ch
  | Move_left_down sp ch => PtzAPIMixin.move_left_down sp ch
  | Move_up sp ch => PtzAPIMixin.move_up sp ch
  | Move_down sp ch => PtzAPIMixin.move_down sp ch
  | Stop_ptz ch => PtzAPIMixin.stop_ptz ch
  | Auto_movement sp ch => PtzAPIMixin.auto_movement sp ch
  | Get_recording_encoding ch => RecordAPIMixin.get_recording_encoding ch
  | Get_recording_advanced ch => RecordAPIMixin.get_recording_advanced ch
  | Get_recording_advanced_v20 ch => RecordAPIMixin.get_recording_advanced_v20 ch
  | Set_recording_advanced_v20_enable en =>
      RecordAPIMixin.set_recording_advanced_v20_enable en
  | Set_recording_encoding au mb mf mp ms sb sf sp ss ch =>
      RecordAPIMixin.set_recording_encoding au mb mf mp ms sb sf sp ss ch
  | Get_zoom_focus ch => ZoomAPIMixin.get_zoom_focus ch
  | Start_zoom_pos pos ch => ZoomAPIMixin.start_zoom_pos pos ch
  | Start_focus_pos pos ch => ZoomAPIMixin.start_focus_pos pos ch
  | Get_auto_focus ch => ZoomAPIMixin.get_auto_focus ch
  | Set_auto_focus dis ch => ZoomAPIMixin.set_auto_focus dis ch
  | Start_zooming_in sp ch => ZoomAPIMixin.start_zooming_in sp ch
  | Start_zooming_out sp ch => ZoomAPIMixin.start_zooming_out sp ch
  | Stop_zooming ch => ZoomAPIMixin.stop_zooming ch
  | Start_focusing_in sp ch => ZoomAPIMixin.start_focusing_in sp ch
  | Start_focusing_out sp ch => ZoomAPIMixin.start_focusing_out sp ch
  | Stop_focusing ch => ZoomAPIMixin.stop_focusing ch
  end.

(** The method names of the source, for reference to the Python text. *)
Definition method_name (c : call) : string :=
  match c with
  | Get_alarm_motion _ => "get_alarm_motion"
  | Get_ptz_check_state _ => "get_ptz_check_state"
  | Get_ptz_presets _ => "get_ptz_presets"
  | Perform_calibration _ => "perform_calibration"
  | Go_to_preset _ _ _ => "go_to_preset"
  | Add_preset _ _ _ => "add_preset"
  | Remove_preset _ _ _ => "remove_preset"
  | Move_right _ _ => "move_right"
  | Move_right_up _ _ => "move_right_up"
  | Move_right_down _ _ => "move_right_down"
  | Move_left _ _ => "move_left"
  | Move_left_up _ _ => "move_left_up"
  | Move_left_down _ _ => "move_left_down"
  | Move_up _ _ => "move_up"
  | Move_down _ _ => "move_down"
  | Stop_ptz _ => "stop_ptz"
  | Auto_movement _ _ => "auto_movement"
  | Get_recording_encoding _ => "get_recording_encoding"
  | Get_recording_advanced _ => "get_recording_advanced"
  | Get_recording_advanced_v20 _ => "get_recording_advanced_v20"
  | Set_recording_advanced_v20_enable _ => "set_recording_advanced_v20_enable"
  | Set_recording_encoding _ _ _ _ _ _ _ _ _ _ => "set_recording_encoding"
  | Get_zoom_focus _ => "get_zoom_focus"
  | Start_zoom_pos _ _ => "start_zoom_pos"
  | Start_focus_pos _ _ => "start_focus_pos"
  | Get_auto_focus _ => "get_auto_focus"
  | Set_auto_focus _ _ => "set_auto_focus"
  | Start_zooming_in _ _ => "start_zooming_in"
  | Start_zooming_out _ _ => "start_zooming_out"
  | Stop_zooming _ => "stop_zooming"
  | Start_focusing_in _ _ => "start_focusing_in"
  | Start_focusing_out _ _ => "start_focusing_out"
  | Stop_focusing _ => "stop_focusing"
  end.

(** What the caller supplied for [channel]; [None] for a method whose
    signature has no [channel] parameter, [Some None] when the parameter
    exists and the argument was left out. *)
Definition channel_arg (c : call) : option (option value) :=
  match c with
  | Set_recording_advanced_v20_enable _ => None
  | Get_alarm_motion ch | Get_ptz_check_state ch | Get_ptz_presets ch
  | Perform_calibration ch | Go_to_preset _ _ ch | Add_preset _ _ ch
  | Remove_preset _ _ ch | Move_right _ ch | Move_right_up _ ch
  | Move_right_down _ ch | Move_left _ ch | Move_left_up _ ch
  | Move_left_down _ ch | Move_up _ ch | Move_down _ ch | Stop_ptz ch
  | Auto_movement _ ch | Get_recording_encoding ch | Get_recording_advanced ch
  | Get_recording_advanced_v20 ch
  | Set_recording_encoding _ _ _ _ _ _ _ _ _ ch
  | Get_zoom_focus ch | Start_zoom_pos _ ch | Start_focus_pos _ ch
  | Get_auto_focus ch | Set_auto_focus _ ch | Start_zooming_in _ ch
  | Start_zooming_out _ ch | Stop_zooming ch | Start_focusing_in _ ch
  | Start_focusing_out _ ch | Stop_focusing ch => Some ch
  end.

(** ** Reading a request back *)

(** The command descriptor [{"cmd": .., "action": .., "param": {..}}]. *)
Record descriptor : Type := Descriptor {
  cmd : string;
  action : Z;
  param : dict
}.

Definition descriptor_value (d : descriptor) : value :=
  VDict [("cmd", VStr (cmd d)); ("action", VInt (action d));
         ("param", VDict (param d))].

Definition as_descriptor (v : value) : option descriptor :=
  match v with
  | VDict [("cmd", VStr c); ("action", VInt a); ("param", VDict p)] =>
      Some (Descriptor c a p)
  | _ => None
  end.

(** The only element of a one-element list. *)
Definition sole_element (body : value) : option value :=
  match body with
  | VList [d] => Some d
  | _ => None
  end.

(** The first call a program makes to the dispatcher. *)
Definition first_request (p : prog value) : option request :=
  match p with
  | Exec n b _ => Some (n, b)
  | Ret _ => None
  end.

Definition sent_name (c : call) : option string :=
  option_map fst (first_request (invoke c)).

Definition sent_body (c : call) : option value :=
  option_map snd (first_request (invoke c)).

Definition descriptor_of (c : call) : option descriptor :=
  match sent_body c with
  | Some body =>
      match sole_element body with
      | Some d => as_descriptor d
      | None => None
      end
  | None => None
  end.

(** The [channel] field of a param object: at the top level, or inside the
    single operation-specific object ([{"Alarm": {"channel": ..}}]). *)
Definition channel_of (p : dict) : option value :=
  match dict_get p "channel" with
  | Some ch => Some ch
  | None =>
      match p with
      | [(_, VDict inner)] => dict_get inner "channel"
      | _ => None
      end
  end.

Definition param_channel (c : call) : option value :=
  match descriptor_of c with
  | Some d => channel_of (param d)
  | None => None
  end.

(** Replaces the value of an existing key, leaving the rest alone. *)
Fixpoint dict_update (d : dict) (k : string) (f : value -> value) : dict :=
  match d with
  | [] => []
  | (k', v) :: rest =>
      if String.eqb k' k then (k', f v) :: rest
      else (k', v) :: dict_update rest k f
  end.

(** Reading and replacing a field along a path of keys in nested dicts. *)
Fixpoint get_in (path : list string) (v : value) : option value :=
  match path with
  | [] => Some v
  | k :: rest =>
      match v with
      | VDict d =>
          match dict_get d k with
          | Some v' => get_in rest v'
          | None => None
          end
      | _ => None
      end
  end.

Fixpoint set_in (path : list string) (new : value) (v : value) : value :=
  match path with
  | [] => new
  | k :: rest =>
      match v with
      | VDict d => VDict (dict_update d k (set_in rest new))
      | _ => v
      end
  end.

(** A query, by the method's name and by the command's name. *)
Definition is_getter (c : call) : bool := String.prefix "get_" (method_name c).

Definition is_get_command (d : descriptor) : bool := String.prefix "Get" (cmd d).

(** The getters that send [action] 0. *)
Definition getter_with_action_0 (c : call) : bool :=
  match c with
  | Get_recording_advanced_v20 _ | Get_zoom_focus _ | Get_auto_focus _ => true
  | _ => false
  end.

(** The two methods that go through [_send_set_preset]. *)
Definition edits_preset (c : call) : bool :=
  match c with
  | Add_preset _ _ _ | Remove_preset _ _ _ => true
  | _ => false
  end.

(** ** Arguments and fields, for the properties of whole families *)

(** The [stop_*] methods. *)
Definition is_stop (c : call) : bool :=
  match c with
  | Stop_ptz _ | Stop_zooming _ | Stop_focusing _ => true
  | _ => false
  end.

(** The arguments of an invocation as the method body uses them: each
    parameter after its default is applied, in the order of the signature.
    [set_auto_focus] uses [disable] only through [1 if disable else 0]. *)
Definition effective_args (c : call) : list value :=
  match c with
  | Get_alarm_motion ch | Get_ptz_check_state ch | Get_ptz_presets ch
  | Perform_calibration ch | Stop_ptz ch | Get_recording_encoding ch
  | Get_recording_advanced ch | Get_recording_advanced_v20 ch
  | Get_zoom_focus ch | Get_auto_focus ch | Stop_zooming ch
  | Stop_focusing ch => [arg (VInt 0) ch]
  | Go_to_preset sp ix ch =>
      [arg (VInt 60) sp; arg (VInt 1) ix; arg (VInt 0) ch]
  | Add_preset p n ch | Remove_preset p n ch =>
      [arg (VInt 1) p; arg (VStr "pos1") n; arg (VInt 0) ch]
  | Move_right sp ch | Move_right_up sp ch | Move_right_down sp ch
  | Move_left sp ch | Move_left_up sp ch | Move_left_down sp ch
  | Move_up sp ch | Move_down sp ch | Auto_movement sp ch =>
      [arg (VInt 25) sp; arg (VInt 0) ch]
  | Set_recording_advanced_v20_enable en => [arg (VInt 0) en]
  | Set_recording_encoding au mb mf mp ms sb sf sp ss ch =>
      [arg (VInt 0) au; arg (VInt 8192) mb; arg (VInt 8) mf;
       arg (VStr "High") mp; arg (VStr "2560*1440") ms;
       arg (VInt 160) sb; arg (VInt 7) sf; arg (VStr "High") sp;
       arg (VStr "640*480") ss; arg (VInt 0) ch]
  | Start_zoom_pos pos ch | Start_focus_pos pos ch => [pos; arg (VInt 0) ch]
  | Set_auto_focus dis ch => [VBool (truthy dis); arg (VInt 0) ch]
  | Start_zooming_in sp ch | Start_zooming_out sp ch =>
      [arg (VInt 60) sp; arg (VInt 0) ch]
  | Start_focusing_in sp ch | Start_focusing_out sp ch =>
      [arg (VInt 32) sp; arg (VInt 0) ch]
  end.

(** The [speed] parameter of a method: what the caller supplied and the
    default of the signature; [None] for a method without [speed]. *)
Definition speed_param (c : call) : option (option value * Z) :=
  match c with
  | Go_to_preset sp _ _ => Some (sp, 60)
  | Move_right sp _ | Move_right_up sp _ | Move_right_down sp _
  | Move_left sp _ | Move_left_up sp _ | Move_left_down sp _
  | Move_up sp _ | Move_down sp _ | Auto_movement sp _ => Some (sp, 25)
  | Start_zooming_in sp _ | Start_zooming_out sp _ => Some (sp, 60)
  | Start_focusing_in sp _ | Start_focusing_out sp _ => Some (sp, 32)
  | _ => None
  end.

(** A top-level field of the param object an invocation sends. *)
Definition param_field (c : call) (k : string) : option value :=
  match descriptor_of c with
  | Some d => dict_get (param d) k
  | None => None
  end.

(** The operation names that go out under [cmd] "PtzCtrl". *)
Definition ptzctrl_ops : list string :=
  ["ToPos"; "Right"; "RightUp"; "RightDown"; "Left"; "LeftUp"; "LeftDown";
   "Up"; "Down"; "Stop"; "Auto"; "ZoomInc"; "ZoomDec"; "FocusInc"; "FocusDec"].

(** The key of the operation-specific object that wraps the fields of a
    command, for the commands that have one. *)
Definition wrapper_key (command : string) : option string :=
  if String.eqb command "GetAlarm" then Some "Alarm"
  else if String.eqb command "SetPtzPreset" then Some "PtzPreset"
  else if String.eqb command "SetRecV20" then Some "Rec"
  else if String.eqb command "SetEnc" then Some "Enc"
  else if String.eqb command "StartZoomFocus" then Some "ZoomFocus"
  else if String.eqb command "SetAutoFocus" then Some "AutoFocus"
  else None.


(** * Properties *)

(** ** Dictionaries *)

Lemma dict_get_set_same (d : dict) (k : string) (v : value) :
  dict_get (dict_set d k v) k = Some v.
Proof.
  induction d as [|[k' v'] rest IH]; simpl.
  - now rewrite String.eqb_refl.
  - destruct (String.eqb k' k) eqn:E; simpl; rewrite E; [reflexivity | exact IH].
Qed.

Lemma dict_get_set_other (d : dict) (k k' : string) (v : value) :
  String.eqb k k' = false ->
  dict_get (dict_set d k v) k' = dict_get d k'.
Proof.
  intros Hk.
  induction d as [|[k0 v0] rest IH]; simpl.
  - now rewrite Hk.
  - destruct (String.eqb k0 k) eqn:E; simpl.
    + apply String.eqb_eq in E; subst k0. now rewrite Hk.
    + now rewrite IH.
Qed.

Lemma dict_set_fresh (d : dict) (k : string) (v : value) :
  dict_get d k = None -> dict_set d k v = (d ++ [(k, v)])%list.
Proof.
  induction d as [|[k' v'] rest IH]; simpl; [reflexivity|].
  destruct (String.eqb k' k); [discriminate|].
  intros H. now rewrite IH.
Qed.

Lemma get_in_set_in (path : list string) (new v old : value) :
  get_in path v = Some old -> get_in path (set_in path new v) = Some new.
Proof.
  revert v.
  induction path as [|k rest IH]; intros v; simpl; [reflexivity|].
  destruct v as [| | | | |items|d]; try discriminate.
  induction d as [|[k' v'] tl IHd]; simpl; [discriminate|].
  destruct (String.eqb k' k) eqn:E; simpl; rewrite E.
  - apply IH.
  - exact IHd.
Qed.

(** ** Descriptors and the dispatcher *)

Lemma as_descriptor_value (d : descriptor) :
  as_descriptor (descriptor_value d) = Some d.
Proof. now destruct d. Qed.

Lemma run_execute_command
      (world exn : Type)
      (dispatcher : string -> value -> world -> outcome exn * world)
      (name : string) (body : value) (w : world) (log : list request) :
  run dispatcher (_execute_command name body) w log
  = (fst (dispatcher name body w), snd (dispatcher name body w),
     (log ++ [(name, body)])%list).
Proof.
  unfold _execute_command; simpl.
  destruct (dispatcher name body w) as [[v|e] w']; reflexivity.
Qed.

(** [_send_operation] leaves [id] out exactly when [index] is [None]. *)
Lemma _send_operation_without_index (operation speed : value) (channel : option value) :
  PtzAPIMixin._send_operation operation speed None channel
  = _execute_command "PtzCtrl"
      (VList [descriptor_value
                (Descriptor "PtzCtrl" 0
                   [("channel", arg (VInt 0) channel); ("op", operation);
                    ("speed", speed)])]).
Proof. reflexivity. Qed.

Lemma _send_operation_with_index (operation speed index : value)
      (channel : option value) :
  PtzAPIMixin._send_operation operation speed (Some index) channel
  = _execute_command "PtzCtrl"
      (VList [descriptor_value
                (Descriptor "PtzCtrl" 0
                   (if is_none index
                    then [("channel", arg (VInt 0) channel); ("op", operation);
                          ("speed", speed)]
                    else [("channel", arg (VInt 0) channel); ("op", operation);
                          ("speed", speed); ("id", index)]))]).
Proof. destruct index; reflexivity. Qed.

(** Every public method is one call of the dispatcher on a one-element
    list that holds one descriptor. *)
Lemma invoke_shape (c : call) :
  exists (name : string) (d : descriptor),
    invoke c = _execute_command name (VList [descriptor_value d]).
Proof.
  destruct c; simpl; eexists; eexists (Descriptor _ _ _); reflexivity.
Qed.

Lemma descriptor_of_shape (c : call) (name : string) (d : descriptor) :
  invoke c = _execute_command name (VList [descriptor_value d]) ->
  sent_name c = Some name /\ descriptor_of c = Some d.
Proof.
  intros H. unfold sent_name, descriptor_of, sent_body. rewrite H. simpl.
  split; [reflexivity | now destruct d].
Qed.

Lemma is_getter_is_get_command (c : call) (d : descriptor) :
  descriptor_of c = Some d -> is_getter c = is_get_command d.
Proof.
  destruct c; intros [= <-]; reflexivity.
Qed.

Lemma channel_arg_none (c : call) :
  channel_arg c = None <-> exists enable, c = Set_recording_advanced_v20_enable enable.
Proof.
  split.
  - destruct c; try discriminate. intros _. now eexists.
  - intros [enable ->]. reflexivity.
Qed.

(** ** The dispatch pattern *)

(** C1: every invocation of a public method of the four mixins builds one
    command descriptor, puts it in a one-element list, calls
    [_execute_command] once with that list and gives back what the
    dispatcher gave: the program is the single node [Exec name [d] Ret], and
    run against any dispatcher (with any session state, returning or
    raising) it adds exactly one entry to the call log and ends with the
    dispatcher's own outcome and state. *)
Theorem dispatch_exactly_once (c : call) :
  exists (name : string) (d : descriptor),
    invoke c = Exec name (VList [descriptor_value d]) Ret
    /\ sent_name c = Some name
    /\ descriptor_of c = Some d
    /\ forall (world exn : Type)
              (dispatcher : string -> value -> world -> outcome exn * world)
              (w : world) (log : list request),
         run dispatcher (invoke c) w log
         = (fst (dispatcher name (VList [descriptor_value d]) w),
            snd (dispatcher name (VList [descriptor_value d]) w),
            (log ++ [(name, VList [descriptor_value d])])%list).
Proof.
  destruct (invoke_shape c) as (name & d & Hc).
  exists name, d.
  destruct (descriptor_of_shape c name d Hc) as [Hn Hd].
  repeat split; try assumption.
  intros world exn dispatcher w log.
  rewrite Hc. apply run_execute_command.
Qed.

(** C10: [add_preset] and [remove_preset] name the command 'PtzCtrl' to
    [_execute_command] while their descriptor's [cmd] is "SetPtzPreset";
    every other public method passes its descriptor's [cmd]. *)
Theorem command_name_vs_cmd (c : call) :
  exists (name : string) (d : descriptor),
    sent_name c = Some name
    /\ descriptor_of c = Some d
    /\ if edits_preset c
       then name = "PtzCtrl" /\ cmd d = "SetPtzPreset"
       else name = cmd d.
Proof.
  destruct c; eexists; eexists; (split; [reflexivity|]);
    (split; [reflexivity|]); simpl; auto.
Qed.

(** ** PTZ presets *)

(** C2: [go_to_preset(speed=60, index=1, channel=0)] hands the dispatcher
    the body
    [[{"cmd":"PtzCtrl","action":0,"param":{"channel":0,"op":"ToPos","speed":60,"id":1}}]]. *)
Theorem go_to_preset_body :
  PtzAPIMixin.go_to_preset (Some (VInt 60)) (Some (VInt 1)) (Some (VInt 0))
  = Exec "PtzCtrl"
      (VList [VDict [("cmd", VStr "PtzCtrl"); ("action", VInt 0);
                     ("param", VDict [("channel", VInt 0); ("op", VStr "ToPos");
                                      ("speed", VInt 60); ("id", VInt 1)])]])
      Ret.
Proof. reflexivity. Qed.

(** C3: [add_preset(preset=2, name="pos2")] builds a descriptor with [cmd]
    "SetPtzPreset", [action] 0 and a param whose [PtzPreset] object holds
    [enable] 1, [id] 2, [name] "pos2" and the channel, 0 by default. *)
Theorem add_preset_descriptor :
  exists (d : descriptor) (preset_obj : dict),
    descriptor_of (Add_preset (Some (VInt 2)) (Some (VStr "pos2")) None) = Some d
    /\ cmd d = "SetPtzPreset"
    /\ action d = 0
    /\ dict_get (param d) "PtzPreset" = Some (VDict preset_obj)
    /\ dict_get preset_obj "enable" = Some (VInt 1)
    /\ dict_get preset_obj "id" = Some (VInt 2)
    /\ dict_get preset_obj "name" = Some (VStr "pos2")
    /\ dict_get preset_obj "channel" = Some (VInt 0).
Proof.
  eexists; eexists.
  split; [reflexivity|].
  repeat split; reflexivity.
Qed.

(** C4: with the same [preset], [name] and [channel] arguments (given or
    left out), the body of [remove_preset] is the body of [add_preset] with
    only [param.PtzPreset.enable] replaced: 1 for [add_preset], 0 for
    [remove_preset]. *)
Theorem remove_preset_differs_in_enable (preset name channel : option value) :
  exists (added removed : value),
    sent_body (Add_preset preset name channel) = Some (VList [added])
    /\ sent_body (Remove_preset preset name channel) = Some (VList [removed])
    /\ removed = set_in ["param"; "PtzPreset"; "enable"] (VInt 0) added
    /\ added = set_in ["param"; "PtzPreset"; "enable"] (VInt 1) removed
    /\ get_in ["param"; "PtzPreset"; "enable"] added = Some (VInt 1)
    /\ get_in ["param"; "PtzPreset"; "enable"] removed = Some (VInt 0).
Proof.
  eexists; eexists.
  split; [reflexivity|].
  split; [reflexivity|].
  repeat split; reflexivity.
Qed.

(** ** Stop *)

(** C7: for the same [channel] argument, [stop_ptz], [stop_zooming] and
    [stop_focusing] hand the dispatcher the same body
    [[{"cmd":"PtzCtrl","action":0,"param":{"channel":channel,"op":"Stop"}}]],
    whose param has the keys [channel] and [op] only (no [speed], no [id]). *)
Theorem stop_commands_share_body (channel : option value) :
  let param := [("channel", arg (VInt 0) channel); ("op", VStr "Stop")] in
  let body :=
    VList [VDict [("cmd", VStr "PtzCtrl"); ("action", VInt 0);
                  ("param", VDict param)]] in
  PtzAPIMixin.stop_ptz channel = Exec "PtzCtrl" body Ret
  /\ ZoomAPIMixin.stop_zooming channel = Exec "PtzCtrl" body Ret
  /\ ZoomAPIMixin.stop_focusing channel = Exec "PtzCtrl" body Ret
  /\ dict_keys param = ["channel"; "op"]
  /\ dict_get param "speed" = None
  /\ dict_get param "id" = None.
Proof. repeat split; reflexivity. Qed.

(** ** Auto focus and alarm *)

(** C8: [set_auto_focus] builds a descriptor with [cmd] "SetAutoFocus",
    [action] 0 and a param [AutoFocus] whose [disable] is 1 for
    [disable=True] and 0 for [disable=False]. *)
Theorem set_auto_focus_descriptor (disable : bool) (channel : option value) :
  descriptor_of (Set_auto_focus (VBool disable) channel)
  = Some (Descriptor "SetAutoFocus" 0
            [("AutoFocus",
              VDict [("channel", arg (VInt 0) channel);
                     ("disable", VInt (if disable then 1 else 0))])]).
Proof. destruct disable; reflexivity. Qed.

(** C9: [get_alarm_motion(channel)] builds a descriptor with [cmd]
    "GetAlarm", [action] 1 and a param [Alarm] holding the channel and
    [type] "md"; the dispatcher's response is the method's result as it
    is (the continuation of the call is [Ret], and a run ends with the
    dispatcher's outcome). *)
Theorem get_alarm_motion_descriptor (channel : option value) :
  let body :=
    VList [descriptor_value
             (Descriptor "GetAlarm" 1
                [("Alarm", VDict [("channel", arg (VInt 0) channel);
                                  ("type", VStr "md")])])] in
  AlarmAPIMixin.get_alarm_motion channel = Exec "GetAlarm" body Ret
  /\ forall (world exn : Type)
            (dispatcher : string -> value -> world -> outcome exn * world)
            (w : world) (log : list request),
       fst (fst (run dispatcher (AlarmAPIMixin.get_alarm_motion channel) w log))
       = fst (dispatcher "GetAlarm" body w).
Proof.
  intros body.
  split; [reflexivity|].
  intros world exn dispatcher w log.
  change (AlarmAPIMixin.get_alarm_motion channel)
    with (_execute_command "GetAlarm" body).
  now rewrite run_execute_command.
Qed.

(** For any object passed as [disable], the field sent is 1 or 0 by the
    object's truth value. *)
Lemma set_auto_focus_truthiness (disable : value) (channel : option value) :
  descriptor_of (Set_auto_focus disable channel)
  = Some (Descriptor "SetAutoFocus" 0
            [("AutoFocus",
              VDict [("channel", arg (VInt 0) channel);
                     ("disable", VInt (if truthy disable then 1 else 0))])]).
Proof.
  unfold descriptor_of, sent_body; simpl.
  now destruct (truthy disable).
Qed.

(** ** The channel field *)

(** C5, as stated, fails: [set_recording_advanced_v20_enable()] sends the
    param [{"Rec": {"enable": 0}}], which has no [channel] field at the top
    level or inside [Rec]. *)
Lemma set_recording_advanced_v20_enable_without_channel :
  ~ exists ch : value,
      param_channel (Set_recording_advanced_v20_enable None) = Some ch.
Proof. intros [ch H]. discriminate H. Qed.

(** C5, amended: every public method that has a [channel] parameter (all
    but [set_recording_advanced_v20_enable]) sends a param with a [channel]
    field, at the top level or inside the operation-specific object; it is
    the argument when one is given and 0 when it is left out.
    [set_recording_advanced_v20_enable] has no [channel] parameter and its
    param has no [channel] field. *)
Theorem channel_field_of_param (c : call) :
  match channel_arg c with
  | Some (Some ch) => param_channel c = Some ch
  | Some None => param_channel c = Some (VInt 0)
  | None =>
      param_channel c = None
      /\ method_name c = "set_recording_advanced_v20_enable"
  end.
Proof.
  destruct c; simpl;
    try (match goal with ch : option value |- _ => destruct ch end;
         reflexivity);
    try (split; reflexivity).
  (* go_to_preset: the param gets its [id] key after [channel] *)
  destruct index as [[]|], channel; reflexivity.
Qed.

(** ** The action field *)

(** C6, as stated, fails: [get_zoom_focus] is a query and sends [action] 0. *)
Lemma get_zoom_focus_action_not_1 :
  ~ exists d : descriptor,
      descriptor_of (Get_zoom_focus None) = Some d
      /\ (action d = 0 \/ action d = 1)
      /\ action d = if is_getter (Get_zoom_focus None) then 1 else 0.
Proof.
  intros (d & Hd & _ & Ha).
  injection Hd as <-. discriminate Ha.
Qed.

(** C6, amended: every descriptor's [action] is 0 or 1; every method that
    is not a getter sends 0; the getters send 1, except
    [get_recording_advanced_v20], [get_zoom_focus] and [get_auto_focus],
    which send 0. *)
Theorem action_of_every_method (c : call) :
  exists d : descriptor,
    descriptor_of c = Some d
    /\ (action d = 0 \/ action d = 1)
    /\ action d = if is_getter c
                  then (if getter_with_action_0 c then 0 else 1)
                  else 0.
Proof.
  destruct c; eexists; (split; [reflexivity|]); simpl; auto.
Qed.

(** ** Default arguments, on examples *)

Example move_right_defaults :
  PtzAPIMixin.move_right None None
  = Exec "PtzCtrl"
      (VList [VDict [("cmd", VStr "PtzCtrl"); ("action", VInt 0);
                     ("param", VDict [("channel", VInt 0); ("op", VStr "Right");
                                      ("speed", VInt 25)])]])
      Ret.
Proof. reflexivity. Qed.

Example go_to_preset_defaults :
  PtzAPIMixin.go_to_preset None None None
  = PtzAPIMixin.go_to_preset (Some (VInt 60)) (Some (VInt 1)) (Some (VInt 0)).
Proof. reflexivity. Qed.

Example go_to_preset_index_None :
  sent_body (Go_to_preset None (Some VNone) None)
  = Some (VList [VDict [("cmd", VStr "PtzCtrl"); ("action", VInt 0);
                        ("param", VDict [("channel", VInt 0);
                                         ("op", VStr "ToPos");
                                         ("speed", VInt 60)])]]).
Proof. reflexivity. Qed.

Example start_focusing_in_defaults :
  descriptor_of (Start_focusing_in None None)
  = Some (Descriptor "PtzCtrl" 0
            [("channel", VInt 0); ("op", VStr "FocusInc"); ("speed", VInt 32)]).
Proof. reflexivity. Qed.

(** * Further properties of the command builders *)

(** ** Which invocations send the same request *)

Ltac split_on_none :=
  repeat match goal with
         | H : context [is_none (arg ?d ?i)] |- _ =>
             destruct (arg d i); cbn [is_none] in H
         | |- context [is_none (arg ?d ?i)] =>
             destruct (arg d i); cbn [is_none]
         end.

(** X1: the request tells the method.  Two invocations that send the same
    command name and body are invocations of the same method, unless both
    are among [stop_ptz], [stop_zooming], [stop_focusing]. *)
Theorem request_determines_method (c1 c2 : call) :
  first_request (invoke c1) = first_request (invoke c2) ->
  method_name c1 = method_name c2
  \/ (is_stop c1 = true /\ is_stop c2 = true).
Proof.
  intros H.
  destruct c1, c2;
    try (left; reflexivity);
    try (right; split; reflexivity);
    cbv -[arg truthy is_none] in H;
    split_on_none;
    discriminate H.
Qed.

Lemma request_determines_method_witness :
  first_request (invoke (Stop_ptz None))
  = first_request (invoke (Stop_focusing (Some (VInt 0))))
  /\ (method_name (Stop_ptz None) = method_name (Stop_focusing (Some (VInt 0)))
      \/ (is_stop (Stop_ptz None) = true
          /\ is_stop (Stop_focusing (Some (VInt 0))) = true)).
Proof.
  split; [reflexivity|].
  apply (request_determines_method (Stop_ptz None) (Stop_focusing (Some (VInt 0)))).
  reflexivity.
Defined.

Ltac split_on_truth :=
  repeat match goal with
         | H : context [truthy ?v] |- _ => destruct (truthy v)
         end.

Ltac rewrite_equal_args :=
  repeat match goal with
         | E : arg _ _ = arg _ _ |- _ => rewrite E; clear E
         | E : VBool _ = VBool _ |- _ => injection E as E
         | E : truthy _ = truthy _ |- _ => rewrite E; clear E
         end.

(** X2: within one method, the request carries the arguments and nothing
    else.  Two invocations of the same method send the same request exactly
    when their arguments agree once the defaults are filled in (an omitted
    argument is the same as its default), where [set_auto_focus] looks at
    [disable] through its truth value only. *)
Theorem same_request_iff_same_arguments (c1 c2 : call) :
  method_name c1 = method_name c2 ->
  (first_request (invoke c1) = first_request (invoke c2)
   <-> effective_args c1 = effective_args c2).
Proof.
  intros Hm.
  destruct c1, c2; try discriminate Hm; clear Hm;
    cbv -[arg truthy is_none]; cbn [arg is_none];
    (split; intros H;
     [ split_on_none; split_on_truth; try discriminate H; congruence
     | injection H as ?; rewrite_equal_args; subst; reflexivity ]).
Qed.

Lemma same_request_iff_same_arguments_witness :
  method_name (Move_down None None)
  = method_name (Move_down (Some (VInt 25)) (Some (VInt 0)))
  /\ (first_request (invoke (Move_down None None))
      = first_request (invoke (Move_down (Some (VInt 25)) (Some (VInt 0))))
      <-> effective_args (Move_down None None)
          = effective_args (Move_down (Some (VInt 25)) (Some (VInt 0)))).
Proof.
  split; [reflexivity|].
  apply (same_request_iff_same_arguments
           (Move_down None None) (Move_down (Some (VInt 25)) (Some (VInt 0)))).
  reflexivity.
Defined.

(** ** Helpers of the PTZ and zoom mixins *)

(** X3: the private helpers of [zoom.py] send what the helpers of [ptz.py]
    send: [_start_operation] is [_send_operation] without an index (left
    out or [None]), and [_stop_zooming_or_focusing] is
    [_send_noparm_operation('Stop')]. *)
Theorem zoom_helpers_agree_with_ptz_helpers
        (operation speed : value) (channel : option value) :
  ZoomAPIMixin._start_operation operation speed channel
  = PtzAPIMixin._send_operation operation speed None channel
  /\ ZoomAPIMixin._start_operation operation speed channel
     = PtzAPIMixin._send_operation operation speed (Some VNone) channel
  /\ ZoomAPIMixin._stop_zooming_or_focusing channel
     = PtzAPIMixin._send_noparm_operation (VStr "Stop") channel.
Proof. repeat split; reflexivity. Qed.

(** X4: [go_to_preset] sends the key [id] last, after [channel], [op] and
    [speed], and only when the index is not [None]: an index left out is
    preset 1, an index given as [None] sends "ToPos" without any [id]. *)
Theorem go_to_preset_id_key (speed index channel : option value) :
  exists p : dict,
    descriptor_of (Go_to_preset speed index channel)
    = Some (Descriptor "PtzCtrl" 0 p)
    /\ dict_get p "op" = Some (VStr "ToPos")
    /\ match index with
       | None =>
           dict_keys p = ["channel"; "op"; "speed"; "id"]
           /\ dict_get p "id" = Some (VInt 1)
       | Some VNone =>
           dict_keys p = ["channel"; "op"; "speed"]
           /\ dict_get p "id" = None
       | Some v =>
           dict_keys p = ["channel"; "op"; "speed"; "id"]
           /\ dict_get p "id" = Some v
       end.
Proof.
  eexists. split; [reflexivity|].
  destruct index as [[]|]; repeat split; reflexivity.
Qed.

(** ** Encoding settings *)

(** X5: [set_recording_encoding] files every argument under its own key of
    [param.Enc]: [audio] and [channel] directly, the four [main_*]
    arguments under [mainStream], the four [sub_*] arguments under
    [subStream], each under [bitRate], [frameRate], [profile], [size]; an
    argument left out is sent as the default of the signature. *)
Theorem set_recording_encoding_fields
        (audio main_bit_rate main_frame_rate main_profile main_size
         sub_bit_rate sub_frame_rate sub_profile sub_size
         channel : option value) :
  exists (d : value) (enc main sub : dict),
    sent_body (Set_recording_encoding audio main_bit_rate main_frame_rate
                 main_profile main_size sub_bit_rate sub_frame_rate
                 sub_profile sub_size channel) = Some (VList [d])
    /\ get_in ["param"; "Enc"] d = Some (VDict enc)
    /\ dict_keys enc = ["audio"; "channel"; "mainStream"; "subStream"]
    /\ dict_get enc "audio" = Some (arg (VInt 0) audio)
    /\ dict_get enc "channel" = Some (arg (VInt 0) channel)
    /\ dict_get enc "mainStream" = Some (VDict main)
    /\ dict_get enc "subStream" = Some (VDict sub)
    /\ main = [("bitRate", arg (VInt 8192) main_bit_rate);
               ("frameRate", arg (VInt 8) main_frame_rate);
               ("profile", arg (VStr "High") main_profile);
               ("size", arg (VStr "2560*1440") main_size)]
    /\ sub = [("bitRate", arg (VInt 160) sub_bit_rate);
              ("frameRate", arg (VInt 7) sub_frame_rate);
              ("profile", arg (VStr "High") sub_profile);
              ("size", arg (VStr "640*480") sub_size)].
Proof.
  eexists; eexists; eexists; eexists.
  split; [reflexivity|].
  split; [reflexivity|].
  repeat split; reflexivity.
Qed.

(** ** Speed and operation of the PtzCtrl commands *)

(** X6: a method with a [speed] parameter sends it as [param.speed]: the
    argument as given, or the default of the signature when left out (25
    for the PTZ moves and [auto_movement], 60 for [go_to_preset] and
    zooming, 32 for focusing).  A method without a [speed] parameter sends
    no top-level [speed]. *)
Theorem speed_field_of_param (c : call) :
  match speed_param c with
  | Some (given, default) =>
      param_field c "speed" = Some (arg (VInt default) given)
  | None => param_field c "speed" = None
  end.
Proof.
  destruct c; try reflexivity.
  (* go_to_preset *)
  unfold param_field. cbn.
  destruct (arg (VInt 1) index); reflexivity.
Qed.

(** X7: a descriptor with [cmd] "PtzCtrl" always has a string [op] out of
    the fifteen operation names of [ptz.py] and [zoom.py]; it has no
    [speed] exactly when the operation is "Stop", and it has an [id] only
    when the operation is "ToPos". *)
Theorem ptzctrl_param_shape (c : call) (d : descriptor) :
  descriptor_of c = Some d ->
  cmd d = "PtzCtrl" ->
  exists op : string,
    dict_get (param d) "op" = Some (VStr op)
    /\ In op ptzctrl_ops
    /\ (dict_get (param d) "speed" = None <-> op = "Stop")
    /\ (dict_get (param d) "id" <> None -> op = "ToPos").
Proof.
  intros Hd Hc.
  destruct c; injection Hd as <-; try discriminate Hc; clear Hc;
    cbn [param]; split_on_none;
    eexists; (split; [reflexivity|]);
    (split; [cbv; tauto|]);
    (split; [split; intros E; first [reflexivity | discriminate E] | ]);
    intros Hid; first [reflexivity | now contradiction Hid].
Qed.

Lemma ptzctrl_param_shape_witness :
  exists op : string,
    dict_get [("channel", VInt 0); ("op", VStr "Stop")] "op" = Some (VStr op)
    /\ In op ptzctrl_ops
    /\ (dict_get [("channel", VInt 0); ("op", VStr "Stop")] "speed" = None
        <-> op = "Stop")
    /\ (dict_get [("channel", VInt 0); ("op", VStr "Stop")] "id" <> None
        -> op = "ToPos").
Proof.
  apply (ptzctrl_param_shape (Stop_zooming None)
           (Descriptor "PtzCtrl" 0 [("channel", VInt 0); ("op", VStr "Stop")]));
    reflexivity.
Defined.

(** ** Flat and wrapped params *)

(** X8: whether the fields of a command lie directly in [param] or inside
    one operation-specific object depends on [cmd] alone.  For "GetAlarm",
    "SetPtzPreset", "SetRecV20", "SetEnc", "StartZoomFocus" and
    "SetAutoFocus" the param has the single key [Alarm], [PtzPreset],
    [Rec], [Enc], [ZoomFocus], [AutoFocus] holding an object; for every
    other command the param is flat and starts with [channel]. *)
Theorem param_flat_or_wrapped (c : call) :
  exists d : descriptor,
    descriptor_of c = Some d
    /\ match wrapper_key (cmd d) with
       | Some k => exists inner : dict, param d = [(k, VDict inner)]
       | None =>
           exists (ch : value) (rest : dict), param d = ("channel", ch) :: rest
       end.
Proof.
  destruct c; eexists; (split; [reflexivity|]); cbn;
    split_on_none; eexists; try eexists; reflexivity.
Qed.

(** ** Absolute zoom and focus positions *)

(** X9: [start_zoom_pos] and [start_focus_pos] with the same [position]
    and [channel] send the same "StartZoomFocus" command except for
    [param.ZoomFocus.op], "ZoomPos" for the one and "FocusPos" for the
    other; [position] goes out as [pos] as it was given. *)
Theorem start_pos_commands_differ_in_op (position : value) (channel : option value) :
  exists (zoom focus : value),
    first_request (invoke (Start_zoom_pos position channel))
    = Some ("StartZoomFocus", VList [zoom])
    /\ first_request (invoke (Start_focus_pos position channel))
       = Some ("StartZoomFocus", VList [focus])
    /\ focus = set_in ["param"; "ZoomFocus"; "op"] (VStr "FocusPos") zoom
    /\ zoom = set_in ["param"; "ZoomFocus"; "op"] (VStr "ZoomPos") focus
    /\ get_in ["param"; "ZoomFocus"; "op"] zoom = Some (VStr "ZoomPos")
    /\ get_in ["param"; "ZoomFocus"; "op"] focus = Some (VStr "FocusPos")
    /\ get_in ["param"; "ZoomFocus"; "pos"] zoom = Some position
    /\ get_in ["param"; "ZoomFocus"; "pos"] focus = Some position.
Proof.
  eexists; eexists.
  split; [reflexivity|].
  split; [reflexivity|].
  repeat split; reflexivity.
Qed.
